(** * The RAG front end of [02-open-source/kivy-app.py]

    A shallow embedding of the search client, the prompt builder, the
    completion client, the orchestrator and the handlers of the Kivy form,
    followed by the properties of the specification that were checked
    against them. *)

From stdpp Require Import gmap list strings.
From Stdlib Require Import ZArith NArith Lia.

Local Open Scope N_scope.

(** ** Python strings

    A Python [str] is a sequence of Unicode code points.  Literals of the
    source are ASCII and are written with [lit]. *)

Abbreviation pystr := (list N).

Definition lit (s : string) : pystr :=
  Ascii.N_of_ascii <$> String.list_ascii_of_string s.

Notation "'py' s" := (lit s) (at level 1, s at level 0, format "'py' s").

(** The line feed, written [\n] in the source. *)
Definition nl : pystr := [10].

(** [str.isspace] on one code point: the characters CPython's
    [_PyUnicode_IsWhitespace] accepts. *)
Definition isspace (c : N) : bool :=
  ((9 <=? c) && (c <=? 13)) || ((28 <=? c) && (c <=? 32))
  || (c =? 133) || (c =? 160) || (c =? 5760)
  || ((8192 <=? c) && (c <=? 8202))
  || (c =? 8232) || (c =? 8233) || (c =? 8239) || (c =? 8287) || (c =? 12288).

Definition is_empty (s : pystr) : bool :=
  match s with [] => true | _ => false end.

(** [str.lstrip()], [str.rstrip()] and [str.strip()] without argument. *)
Fixpoint lstrip (s : pystr) : pystr :=
  match s with
  | c :: s' => if isspace c then lstrip s' else s
  | [] => []
  end.

Fixpoint rstrip (s : pystr) : pystr :=
  match s with
  | c :: s' =>
      let r := rstrip s' in
      if isspace c && is_empty r then [] else c :: r
  | [] => []
  end.

Definition strip (s : pystr) : pystr := rstrip (lstrip s).

(** ** Exceptions and fallible code *)

Inductive exn : Type :=
  | KeyError (key : pystr)
  | IndexError
  | ValueError
  | AttributeError (name : pystr)
  | NotModelled
  | ServiceError (detail : pystr).

Inductive result (A : Type) : Type :=
  | Ok (a : A)
  | Raise (e : exn).
Arguments Ok {A} a.
Arguments Raise {A} e.

Global Instance result_ret : MRet result := fun A a => Ok a.

Global Instance result_bind : MBind result := fun A B k r =>
  match r with
  | Ok a => k a
  | Raise e => Raise e
  end.

(** ** [str.format]

    The fragment of [str.format] the prompt template needs: literal text,
    the doubled-brace escapes and replacement fields that are a plain keyword
    name.  A field with a conversion, a format specification, an attribute
    or an index is outside the fragment ([NotModelled]); an empty or numeric
    field name is positional and no positional argument is ever passed. *)

Definition lbrace : N := 123.
Definition rbrace : N := 125.

Definition is_digit (c : N) : bool := (48 <=? c) && (c <=? 57).

Definition field_special (c : N) : bool :=
  (c =? 33) || (c =? 58) || (c =? 46) || (c =? 91) || (c =? lbrace).

Definition kwargs_lookup (kw : list (pystr * pystr)) (name : pystr) : result pystr :=
  if forallb is_digit name then Raise IndexError
  else match list_find (fun p => p.1 = name) kw with
       | Some (_, (_, v)) => Ok v
       | None => Raise (KeyError name)
       end.

Fixpoint format_from (kw : list (pystr * pystr)) (field : option pystr)
    (s : pystr) : result pystr :=
  match field, s with
  | None, [] => Ok []
  | None, c :: s' =>
      if c =? lbrace then
        match s' with
        | c' :: s'' =>
            if c' =? lbrace
            then (out ← format_from kw None s''; Ok (lbrace :: out))
            else format_from kw (Some []) s'
        | [] => Raise ValueError
        end
      else if c =? rbrace then
        match s' with
        | c' :: s'' =>
            if c' =? rbrace
            then (out ← format_from kw None s''; Ok (rbrace :: out))
            else Raise ValueError
        | [] => Raise ValueError
        end
      else (out ← format_from kw None s'; Ok (c :: out))
  | Some name, [] => Raise ValueError
  | Some name, c :: s' =>
      if c =? rbrace then
        v ← kwargs_lookup kw name;
        out ← format_from kw None s';
        Ok (v ++ out)
      else if field_special c then Raise NotModelled
      else format_from kw (Some (name ++ [c])) s'
  end.

Definition str_format (template : pystr) (kw : list (pystr * pystr)) : result pystr :=
  format_from kw None template.

(** ** The prompt builder, [build_prompt] *)

(** A document of the index: a [dict] from field names to strings. *)
Abbreviation document := (gmap (list N) (list N)).

(** [doc[key]] *)
Definition getitem (doc : document) (key : pystr) : result pystr :=
  match doc !! key with
  | Some v => Ok v
  | None => Raise (KeyError key)
  end.

(** The triple-quoted literal of the source, before its [.strip()]. *)
Definition prompt_template_literal : pystr :=
  nl ++
  py"    You're a course teaching assistant. Answer the QUESTION based on the CONTEXT from the FAQ database." ++ nl ++
  py"    Use only the facts from the CONTEXT when answering the QUESTION." ++ nl ++
  nl ++
  py"    QUESTION: {question}" ++ nl ++
  nl ++
  py"    CONTEXT: " ++ nl ++
  py"    {context}" ++ nl ++
  py"    ".

Definition prompt_template : pystr := strip prompt_template_literal.

(** The f-string of the loop body; the three subscripts are evaluated from
    left to right. *)
Definition context_block (doc : document) : result pystr :=
  section ← getitem doc py"section";
  question ← getitem doc py"question";
  text ← getitem doc py"text";
  Ok (py"section: " ++ section ++ nl ++ py"question: " ++ question ++ nl
      ++ py"answer: " ++ text ++ nl ++ nl).

(** [for doc in search_results: context = context + f"..."] *)
Fixpoint context_loop (context : pystr) (search_results : list document)
    : result pystr :=
  match search_results with
  | [] => Ok context
  | doc :: rest =>
      block ← context_block doc;
      context_loop (context ++ block) rest
  end.

Definition build_prompt (query : pystr) (search_results : list document)
    : result pystr :=
  context ← context_loop [] search_results;
  formatted ← str_format prompt_template
                 [(py"question", query); (py"context", context)];
  Ok (strip formatted).

(** ** The search client, [elastic_search] *)

(** The request body is a literal of nested [dict]s; their items are kept in
    the order of the source. *)
#[local] Unset Elimination Schemes.
Inductive json : Type :=
  | JInt (n : Z)
  | JStr (s : pystr)
  | JList (items : list json)
  | JDict (items : list (pystr * json)).
#[local] Set Elimination Schemes.

Definition search_query (query : pystr) : json :=
  JDict [
    (py"size", JInt 5);
    (py"query", JDict [
      (py"bool", JDict [
        (py"must", JDict [
          (py"multi_match", JDict [
            (py"query", JStr query);
            (py"fields", JList [JStr py"question^3"; JStr py"text"; JStr py"section"]);
            (py"type", JStr py"best_fields")
          ])
        ]);
        (py"filter", JDict [
          (py"term", JDict [
            (py"course", JStr py"data-engineering-zoomcamp")
          ])
        ])
      ])
    ])
  ].

(** Reading and replacing the value under a path of keys. *)
Fixpoint assoc_get (key : pystr) (items : list (pystr * json)) : option json :=
  match items with
  | [] => None
  | (k, v) :: rest => if bool_decide (k = key) then Some v else assoc_get key rest
  end.

Fixpoint jget (path : list pystr) (j : json) : option json :=
  match path with
  | [] => Some j
  | key :: path' =>
      match j with
      | JDict items => v ← assoc_get key items; jget path' v
      | _ => None
      end
  end.

Fixpoint jset (path : list pystr) (new : json) (j : json) : json :=
  match path with
  | [] => new
  | key :: path' =>
      match j with
      | JDict items =>
          JDict ((fun kv : pystr * json =>
                    if bool_decide (kv.1 = key) then (kv.1, jset path' new kv.2) else kv)
                 <$> items)
      | _ => j
      end
  end.

(** How the search service reads an entry of [fields]: [name^n] is the field
    [name] with boost [n], a name without caret has boost 1. *)
Fixpoint split_caret (s : pystr) : pystr * option pystr :=
  match s with
  | [] => ([], None)
  | c :: s' =>
      if c =? 94 then ([], Some s')
      else let '(name, boost) := split_caret s' in (c :: name, boost)
  end.

Definition decimal (digits : pystr) : N :=
  foldl (fun acc c => 10 * acc + (c - 48)) 0 digits.

Definition field_boost (field : json) : option (pystr * N) :=
  match field with
  | JStr s =>
      let '(name, boost) := split_caret s in
      Some (name, match boost with Some d => decimal d | None => 1 end)
  | _ => None
  end.

(** ** The services and their responses *)

(** [response_es['hits']['hits']] is a list of hits, each with a document
    under ['_source']. *)
Record hit : Type := { _source : document }.
Record search_response : Type := { hits : list hit }.

(** The chat completion request and response. *)
Record chat_message : Type := { role : pystr; content : pystr }.
Record chat_request : Type := { model : pystr; messages : list chat_message }.
Record chat_choice : Type := { message : chat_message }.
Record chat_response : Type := { choices : list chat_choice }.

(** What the program does to the outside: lines printed on the console and
    requests sent to the two services, in the order they happen. *)
Inductive event : Type :=
  | Print (line : pystr)
  | Search (index : pystr) (body : json)
  | ChatCompletion (request : chat_request).

(** Effectful code: a computation extends the trace of events and either
    returns a value or raises. *)
Definition M (A : Type) : Type := list event -> list event * result A.

Global Instance M_ret : MRet M := fun A a t => (t, Ok a).

Global Instance M_bind : MBind M := fun A B k m t =>
  match m t with
  | (t', Ok a) => k a t'
  | (t', Raise e) => (t', Raise e)
  end.

Definition lift {A} (r : result A) : M A := fun t => (t, r).

Definition raise {A} (e : exn) : M A := lift (Raise e).

Definition print (line : pystr) : M unit := fun t => (t ++ [Print line], Ok ()).

(** The user interface: the three properties of [MyTextInputApp]. *)
Record MyTextInputApp : Type := {
  input_text : pystr;
  output_text : pystr;
  is_loading : bool
}.

(** Callbacks handed to [Clock.schedule_once]. *)
Inductive callback : Type :=
  | FinishProcessing.

(** The application object together with the callbacks the clock holds, each
    with its timeout in seconds, oldest first. *)
Record ui_state : Type := {
  app : MyTextInputApp;
  scheduled : list (callback * N)
}.

Inductive ui_event : Type :=
  | TextChanged (text : pystr)
  | AskClicked
  | ClockFires.

(** The names bound in the body of [class MyTextInputApp]. *)
Definition class_namespace : list pystr :=
  [py"input_text"; py"output_text"; py"is_loading"; py"window_size";
   py"build"; py"on_text_changed"; py"on_ask_clicked"; py"finish_processing"].

Section Program.

(** The two clients of the module, [es_client.search] and
    [client.chat.completions.create]: each answers a request with a response
    or raises. *)
Variable es_client_search : pystr -> json -> result search_response.
Variable chat_completions_create : chat_request -> result chat_response.

(** The attribute [rag] of the base class [App].  The class body binds no
    such name ([class_namespace]) and no handler sets it on the instance, so
    [self.rag] is looked up in [App], which belongs to Kivy. *)
Variable App_rag : option (pystr -> M pystr).

Definition default_index_name : pystr := py"course-questions-docker".

Definition elastic_search (query : pystr) (index_name : pystr) : M (list document) :=
  let search_query := search_query query in
  response_es ← (fun t => (t ++ [Search index_name search_query],
                           es_client_search index_name search_query));
  let result_docs :=
    foldl (fun result_docs hit => result_docs ++ [_source hit]) [] (hits response_es) in
  mret result_docs.

Definition llm (prompt : pystr) : M pystr :=
  let request :=
    {| model := py"phi3";
       messages := [ {| role := py"user"; content := prompt |} ] |} in
  response ← (fun t => (t ++ [ChatCompletion request],
                        chat_completions_create request));
  match choices response !! 0%nat with
  | Some choice => mret (content (message choice))
  | None => raise IndexError
  end.

Definition rag (query : pystr) : M pystr :=
  print py"--------------IDENTIFYING RELATED CONTENT USING ELASTIC SEARCH-------------------";;
  search_results ← elastic_search query default_index_name;
  print py"--------------BUILDING PROMPT-------------------";;
  prompt ← lift (build_prompt query search_results);
  print py"--------------CALLING THE LLM-------------------";;
  answer ← llm prompt;
  print py"--------------RETURNING THE ANSWER-------------------";;
  mret answer.

(** The three calls of [rag] without its console markers. *)
Definition pipeline (query : pystr) : M pystr :=
  search_results ← elastic_search query default_index_name;
  prompt ← lift (build_prompt query search_results);
  llm prompt.

(** *** The handlers of the form *)

Definition initial_app : MyTextInputApp :=
  {| input_text := py""; output_text := py"Initial Output"; is_loading := false |}.

Definition set_input_text (v : pystr) (self : MyTextInputApp) : MyTextInputApp :=
  {| input_text := v; output_text := output_text self; is_loading := is_loading self |}.

Definition set_output_text (v : pystr) (self : MyTextInputApp) : MyTextInputApp :=
  {| input_text := input_text self; output_text := v; is_loading := is_loading self |}.

Definition set_is_loading (v : bool) (self : MyTextInputApp) : MyTextInputApp :=
  {| input_text := input_text self; output_text := output_text self; is_loading := v |}.

Definition on_text_changed (w : ui_state) (text : pystr) : ui_state :=
  {| app := set_input_text text (app w); scheduled := scheduled w |}.

Definition on_ask_clicked (w : ui_state) : ui_state :=
  let self := set_is_loading true (app w) in
  let self := set_output_text py"Processing..." self in
  {| app := self; scheduled := scheduled w ++ [(FinishProcessing, 2)] |}.

Definition finish_processing (self : MyTextInputApp) : M MyTextInputApp :=
  match App_rag with
  | None => raise (AttributeError py"rag")
  | Some self_rag =>
      answer ← self_rag (input_text self);
      let self := set_output_text (py"Output: " ++ answer) self in
      let self := set_is_loading false self in
      mret self
  end.

Definition run_callback (cb : callback) (self : MyTextInputApp) : M MyTextInputApp :=
  match cb with
  | FinishProcessing => finish_processing self
  end.

(** One turn of the event loop.  [ClockFires] runs the oldest scheduled
    callback, if there is one. *)
Definition ui_step (w : ui_state) (ev : ui_event) : M ui_state :=
  match ev with
  | TextChanged text => mret (on_text_changed w text)
  | AskClicked => mret (on_ask_clicked w)
  | ClockFires =>
      match scheduled w with
      | [] => mret w
      | (cb, _) :: rest =>
          self ← run_callback cb (app w);
          mret {| app := self; scheduled := rest |}
      end
  end.

(** A run of the event loop: the states observed after each handled event,
    and the exception that ended the loop, if any.  Nothing catches an
    exception of a handler. *)
Fixpoint ui_run (evs : list ui_event) (w : ui_state) (t : list event)
    : list ui_state * option exn * list event :=
  match evs with
  | [] => ([], None, t)
  | ev :: rest =>
      match ui_step w ev t with
      | (t', Ok w') =>
          let '(ws, e, t'') := ui_run rest w' t' in (w' :: ws, e, t'')
      | (t', Raise e) => ([], Some e, t')
      end
  end.

End Program.

(** ** The widget tree, [MyTextInputApp.build] *)

(** The names bound at module level: the imports of lines 1 to 8, the two
    clients, the four functions and the class. *)
Definition module_globals : list pystr :=
  [py"App"; py"BoxLayout"; py"TextInput"; py"Button"; py"StringProperty";
   py"BooleanProperty"; py"Clock"; py"OpenAI"; py"Elasticsearch";
   py"client"; py"es_client"; py"elastic_search"; py"build_prompt"; py"llm";
   py"rag"; py"MyTextInputApp"].

(** Values passed as keyword arguments to the widget constructors. *)
Inductive widget_arg : Type :=
  | ArgStr (s : pystr)
  | ArgBool (b : bool)
  | ArgMethod (name : pystr).

(** How [build] ends: with the layout, with a [NameError] for a global name
    that is bound nowhere, or with an exception of a call it makes. *)
Inductive build_outcome (A : Type) : Type :=
  | Built (a : A)
  | NameError (name : pystr)
  | Raised (e : exn).
Arguments Built {A} a.
Arguments NameError {A} name.
Arguments Raised {A} e.

Global Instance build_outcome_ret : MRet build_outcome := fun A a => Built a.

Global Instance build_outcome_bind : MBind build_outcome := fun A B k r =>
  match r with
  | Built a => k a
  | NameError name => NameError name
  | Raised e => Raised e
  end.

Definition of_result {A} (r : result A) : build_outcome A :=
  match r with
  | Ok a => Built a
  | Raise e => Raised e
  end.

Section Build.

(** The widgets of Kivy: their type, the call of a widget class by its name
    with keyword arguments, and [layout.add_widget], which gives the layout
    with one more child; both may raise.  [builtins] are the names of
    Python's builtins module, where a global name is looked up last. *)
Variable widget : Type.
Variable builtins : list pystr.
Variable construct : pystr -> list (pystr * widget_arg) -> result widget.
Variable add_widget : widget -> widget -> result widget.

(** A global name is looked up in the module, then in the builtins. *)
Definition load_global (name : pystr) : build_outcome pystr :=
  if bool_decide (name ∈ module_globals) then Built name
  else if bool_decide (name ∈ builtins) then Built name
  else NameError name.

(** [self.name] for a method of the class. *)
Definition load_method (name : pystr) : build_outcome widget_arg :=
  if bool_decide (name ∈ class_namespace) then Built (ArgMethod name)
  else Raised (AttributeError name).

Definition build (self : MyTextInputApp) : build_outcome widget :=
  cls ← load_global py"BoxLayout";
  layout ← of_result (construct cls [(py"orientation", ArgStr py"vertical")]);
  cls ← load_global py"TextInput";
  handler ← load_method py"on_text_changed";
  input_box ← of_result (construct cls [(py"hint_text", ArgStr py"Enter text here");
                                        (py"on_text_change", handler)]);
  cls ← load_global py"Button";
  handler ← load_method py"on_ask_clicked";
  ask_button ← of_result (construct cls [(py"text", ArgStr py"Ask");
                                         (py"on_press", handler)]);
  cls ← load_global py"Label";
  output_label ← of_result (construct cls [(py"text", ArgStr (output_text self))]);
  cls ← load_global py"ActivityIndicator";
  loading_indicator ← of_result (construct cls [(py"active", ArgBool (is_loading self))]);
  layout ← of_result (add_widget layout input_box);
  layout ← of_result (add_widget layout ask_button);
  layout ← of_result (add_widget layout output_label);
  layout ← of_result (add_widget layout loading_indicator);
  mret layout.

End Build.

(** * Vocabulary of the properties *)

(** ** The parts of the prompt *)

(** The template up to its field [question], and between its two fields. *)
Definition question_head : pystr :=
  py"You're a course teaching assistant. Answer the QUESTION based on the CONTEXT from the FAQ database." ++ nl ++
  py"    Use only the facts from the CONTEXT when answering the QUESTION." ++ nl ++
  nl ++
  py"    QUESTION: ".

Definition context_head : pystr :=
  nl ++ nl ++ py"    CONTEXT: " ++ nl ++ py"    ".

(** Characters of literal text and of field names in a template. *)
Definition plain_text (c : N) : bool := negb (c =? lbrace) && negb (c =? rbrace).

Definition name_char (c : N) : bool := negb (c =? rbrace) && negb (field_special c).

(** The precondition of the docstring: the document has the three keys. *)
Definition has_keys (doc : document) : Prop :=
  is_Some (doc !! py"section") /\ is_Some (doc !! py"question")
  /\ is_Some (doc !! py"text").

(** The block the loop appends for a document that has them. *)
Definition block_of (doc : document) : pystr :=
  py"section: " ++ doc !!! py"section" ++ nl ++
  py"question: " ++ doc !!! py"question" ++ nl ++
  py"answer: " ++ doc !!! py"text" ++ nl ++ nl.

(** The block of the last document once the prompt is stripped. *)
Definition last_block_of (doc : document) : pystr :=
  py"section: " ++ doc !!! py"section" ++ nl ++
  py"question: " ++ doc !!! py"question" ++ nl ++
  py"answer:" ++ rstrip (py" " ++ doc !!! py"text").

Fixpoint stripped_blocks (docs : list document) : pystr :=
  match docs with
  | [] => []
  | [doc] => last_block_of doc
  | doc :: rest => block_of doc ++ stripped_blocks rest
  end.

Definition stripped_context (docs : list document) : pystr :=
  match docs with
  | [] => nl ++ nl ++ py"    CONTEXT:"
  | _ => context_head ++ stripped_blocks docs
  end.

(** The two first lines of a block. *)
Definition block_front (doc : document) : pystr :=
  py"section: " ++ doc !!! py"section" ++ nl ++
  py"question: " ++ doc !!! py"question" ++ nl.

(** ** Occurrences of a string in another *)

Definition occurs_in (part s : pystr) : Prop :=
  exists pre post, s = pre ++ part ++ post.

(** The parts occur in [s] one after the other, without overlap. *)
Fixpoint occur_in_order (parts : list pystr) (s : pystr) : Prop :=
  match parts with
  | [] => True
  | part :: parts' =>
      exists pre post, s = pre ++ part ++ post /\ occur_in_order parts' post
  end.

Fixpoint prefixb (part s : pystr) : bool :=
  match part, s with
  | [], _ => true
  | a :: part', b :: s' => (a =? b) && prefixb part' s'
  | _ :: _, [] => false
  end.

Fixpoint infixb (part s : pystr) : bool :=
  prefixb part s || match s with [] => false | _ :: s' => infixb part s' end.

(** The number of positions of [s] at which [part] starts. *)
Fixpoint count_infix (part s : pystr) : nat :=
  ((if prefixb part s then 1 else 0)
   + match s with [] => 0 | _ :: s' => count_infix part s' end)%nat.

Definition doc_values (doc : document) : list pystr :=
  [doc !!! py"section"; doc !!! py"question"; doc !!! py"text"].

(** The values of the documents as the stripped prompt carries them. *)
Fixpoint stripped_values (docs : list document) : list pystr :=
  match docs with
  | [] => []
  | [doc] => [doc !!! py"section"; doc !!! py"question"; rstrip (doc !!! py"text")]
  | doc :: rest => doc_values doc ++ stripped_values rest
  end.

(** ** Example documents *)

Definition doc_x : document :=
  {[ py"section" := py"General"; py"question" := py"What is X?";
     py"text" := py"X is Y." ]}.

(** A document whose text ends with a line feed. *)
Definition doc_trailing : document :=
  {[ py"section" := py"General"; py"question" := py"What is X?";
     py"text" := py"X is Y." ++ nl ]}.

(** A document without the key ['text']. *)
Definition doc_untexted : document :=
  {[ py"section" := py"General"; py"question" := py"What is X?" ]}.

Definition prompt_keys : list pystr := [py"section"; py"question"; py"text"].

Global Instance has_keys_dec (doc : document) : Decision (has_keys doc).
Proof. unfold has_keys. apply _. Defined.

(** ** Requests, console markers and stubs of the services *)

Definition query_path : list pystr :=
  [py"query"; py"bool"; py"must"; py"multi_match"; py"query"].

Definition fields_path : list pystr :=
  [py"query"; py"bool"; py"must"; py"multi_match"; py"fields"].

Definition course_path : list pystr :=
  [py"query"; py"bool"; py"filter"; py"term"; py"course"].

(** The request [llm] sends for a prompt. *)
Definition llm_request (prompt : pystr) : chat_request :=
  {| model := py"phi3"; messages := [ {| role := py"user"; content := prompt |} ] |}.

Definition marker_search : pystr :=
  py"--------------IDENTIFYING RELATED CONTENT USING ELASTIC SEARCH-------------------".
Definition marker_prompt : pystr :=
  py"--------------BUILDING PROMPT-------------------".
Definition marker_llm : pystr :=
  py"--------------CALLING THE LLM-------------------".
Definition marker_return : pystr :=
  py"--------------RETURNING THE ANSWER-------------------".

Definition doc_course : document :=
  {[ py"section" := py"General course-related questions";
     py"question" := py"Course - How do I join?";
     py"text" := py"Register on the course page.";
     py"course" := py"data-engineering-zoomcamp" ]}.

Definition es_stub : pystr -> json -> result search_response :=
  fun _ _ => Ok {| hits := [ {| _source := doc_course |} ] |}.

Definition chat_stub : chat_request -> result chat_response :=
  fun _ =>
    Ok {| choices :=
            [ {| message := {| role := py"assistant";
                               content := py"Register on the course page." |} |} ] |}.

Definition es_down : pystr -> json -> result search_response :=
  fun _ _ => Raise (ServiceError py"connection refused").

Definition chat_down : chat_request -> result chat_response :=
  fun _ => Raise (ServiceError py"model not found").

(** ** States of the form *)

(** The form at start, and after the question was typed and Ask pressed. *)
Definition ui_initial : ui_state := {| app := initial_app; scheduled := [] |}.

Definition ui_asked : ui_state :=
  on_ask_clicked (on_text_changed ui_initial py"How do I join the course?").

(** The state a submit leaves: busy, placeholder shown, a callback pending. *)
Definition busy (w : ui_state) : Prop :=
  is_loading (app w) = true /\ output_text (app w) = py"Processing..."
  /\ scheduled w <> [].

Global Instance ui_event_eq_dec : EqDecision ui_event.
Proof. solve_decision. Defined.

(** ** Vocabulary of the further properties *)

(** The first of the three keys a document lacks, in the order the f-string
    reads them. *)
Definition first_missing (doc : document) : option pystr :=
  head (filter (fun key => doc !! key = None) prompt_keys).

(** Two documents with the same section, question and text. *)
Definition same_fields (doc doc' : document) : Prop :=
  doc !! py"section" = doc' !! py"section"
  /\ doc !! py"question" = doc' !! py"question"
  /\ doc !! py"text" = doc' !! py"text".

Definition is_search (ev : event) : bool :=
  match ev with Search _ _ => true | _ => false end.

Definition is_chat (ev : event) : bool :=
  match ev with ChatCompletion _ => true | _ => false end.

(** The two texts the form can show. *)
Definition shows_placeholder (w : ui_state) : Prop :=
  output_text (app w) = py"Initial Output"
  \/ output_text (app w) = py"Processing...".

(** The prompt for a query without documents. *)
Definition bare_prompt (query : pystr) : pystr :=
  question_head ++ query ++ nl ++ nl ++ py"    CONTEXT:".

(** Further stubs: seven hits, a hit without text, no hit, no choice. *)
Definition es_seven : pystr -> json -> result search_response :=
  fun _ _ => Ok {| hits := replicate 7 {| _source := doc_course |} |}.

Definition es_untexted : pystr -> json -> result search_response :=
  fun _ _ => Ok {| hits := [ {| _source := doc_course |}; {| _source := doc_untexted |} ] |}.

Definition es_empty : pystr -> json -> result search_response :=
  fun _ _ => Ok {| hits := [] |}.

Definition chat_no_choice : chat_request -> result chat_response :=
  fun _ => Ok {| choices := [] |}.

(** A widget tree and constructors that always succeed. *)
#[local] Unset Elimination Schemes.
Inductive tree : Type :=
  | Node (cls : pystr) (kwargs : list (pystr * widget_arg)) (children : list tree).
#[local] Set Elimination Schemes.

Definition tree_construct (cls : pystr) (kwargs : list (pystr * widget_arg))
    : result tree :=
  Ok (Node cls kwargs []).

Definition tree_add_widget (layout child : tree) : result tree :=
  match layout with
  | Node cls kwargs children => Ok (Node cls kwargs (children ++ [child]))
  end.

(** Some names of Python's builtins module. *)
Definition some_builtins : list pystr :=
  [py"print"; py"len"; py"str"; py"list"; py"dict"; py"Exception"; py"ValueError"].

(** * Properties *)

(** ** Strings *)

Lemma rstrip_app (a b : pystr) :
  rstrip (a ++ b) = if is_empty (rstrip b) then rstrip a else a ++ rstrip b.
Proof.
  induction a as [|c a IH]; simpl.
  - destruct (rstrip b); reflexivity.
  - rewrite IH. destruct (is_empty (rstrip b)) eqn:Hb.
    + reflexivity.
    + destruct a; simpl.
      * rewrite Hb, andb_false_r. reflexivity.
      * rewrite andb_false_r. reflexivity.
Qed.

(** [rstrip] removes what [lstrip] removes from the reversed string. *)
Lemma rstrip_rev (s : pystr) : rstrip s = rev (lstrip (rev s)).
Proof.
  induction s as [|c s IH] using rev_ind; [reflexivity|].
  rewrite rstrip_app, rev_app_distr. simpl.
  destruct (isspace c); simpl.
  - exact IH.
  - rewrite rev_involutive. reflexivity.
Qed.

Lemma format_from_text kw (a s : pystr) :
  forallb plain_text a = true ->
  format_from kw None (a ++ s) = (out ← format_from kw None s; Ok (a ++ out)).
Proof.
  induction a as [|c a IH]; simpl; intros Ha.
  - destruct (format_from kw None s); reflexivity.
  - apply andb_prop in Ha as [Hc Ha]. unfold plain_text in Hc.
    apply andb_prop in Hc as [Hl Hr].
    apply negb_true_iff in Hl, Hr. rewrite Hl, Hr, (IH Ha).
    destruct (format_from kw None s); reflexivity.
Qed.

Lemma format_from_name kw (acc name s : pystr) :
  forallb name_char name = true ->
  format_from kw (Some acc) (name ++ rbrace :: s)
  = (v ← kwargs_lookup kw (acc ++ name); out ← format_from kw None s; Ok (v ++ out)).
Proof.
  revert acc. induction name as [|c name IH]; simpl; intros acc Hn.
  - rewrite app_nil_r. reflexivity.
  - apply andb_prop in Hn as [Hc Hn]. unfold name_char in Hc.
    apply andb_prop in Hc as [Hr Hs].
    apply negb_true_iff in Hr, Hs. rewrite Hr, Hs, (IH _ Hn), <- app_assoc.
    reflexivity.
Qed.

Lemma format_from_field kw (name s : pystr) :
  forallb name_char name = true ->
  format_from kw None (lbrace :: name ++ rbrace :: s)
  = (v ← kwargs_lookup kw name; out ← format_from kw None s; Ok (v ++ out)).
Proof.
  intros Hn. etrans; [|exact (format_from_name kw [] name s Hn)].
  destruct name as [|c name]; [reflexivity|].
  simpl in Hn. apply andb_prop in Hn as [Hc _]. unfold name_char in Hc.
  apply andb_prop in Hc as [_ Hs]. unfold field_special in Hs.
  apply negb_true_iff in Hs. repeat (apply orb_false_elim in Hs as [Hs ?]).
  cbn [format_from app]. replace (lbrace =? lbrace) with true by reflexivity.
  cbv iota. rewrite <- app_comm_cons. rewrite H. reflexivity.
Qed.

Lemma prompt_template_fields :
  prompt_template
  = question_head ++ (lbrace :: py"question" ++ rbrace ::
      context_head ++ (lbrace :: py"context" ++ rbrace :: [])).
Proof. vm_compute. reflexivity. Qed.

Lemma format_prompt_template (query context : pystr) :
  str_format prompt_template [(py"question", query); (py"context", context)]
  = Ok (question_head ++ query ++ context_head ++ context).
Proof.
  unfold str_format. rewrite prompt_template_fields.
  rewrite format_from_text by (vm_compute; reflexivity).
  rewrite format_from_field by (vm_compute; reflexivity).
  rewrite format_from_text by (vm_compute; reflexivity).
  rewrite format_from_field by (vm_compute; reflexivity).
  replace (kwargs_lookup _ py"question") with (Ok query) by reflexivity.
  replace (kwargs_lookup _ py"context") with (Ok context) by reflexivity.
  cbn [format_from mbind result_bind]. rewrite app_nil_r. reflexivity.
Qed.

Lemma lstrip_question_head (s : pystr) :
  lstrip (question_head ++ s) = question_head ++ s.
Proof. reflexivity. Qed.

Lemma rstrip_app_keep (a b : pystr) :
  is_empty (rstrip b) = false -> rstrip (a ++ b) = a ++ rstrip b.
Proof. intros Hb. rewrite rstrip_app, Hb. reflexivity. Qed.

Lemma rstrip_app_spaces (a b : pystr) :
  rstrip b = [] -> rstrip (a ++ b) = rstrip a.
Proof. intros Hb. rewrite rstrip_app, Hb. reflexivity. Qed.

Lemma rstrip_app_solid (a b : pystr) :
  rstrip a = a -> rstrip (a ++ b) = a ++ rstrip b.
Proof.
  intros Ha. rewrite rstrip_app. destruct (rstrip b) eqn:Hb; simpl.
  - rewrite app_nil_r. exact Ha.
  - reflexivity.
Qed.

(** ** The shape of the prompt *)

Lemma getitem_lookup_total (doc : document) key :
  is_Some (doc !! key) -> getitem doc key = Ok (doc !!! key).
Proof.
  intros [v Hv]. unfold getitem. rewrite Hv.
  rewrite (lookup_total_correct _ _ _ Hv). reflexivity.
Qed.

Lemma context_block_ok (doc : document) :
  has_keys doc -> context_block doc = Ok (block_of doc).
Proof.
  intros (Hs & Hq & Ht). unfold context_block.
  rewrite !getitem_lookup_total by assumption. reflexivity.
Qed.

Lemma context_loop_ok (context : pystr) (docs : list document) :
  Forall has_keys docs ->
  context_loop context docs = Ok (context ++ concat (block_of <$> docs)).
Proof.
  intros Hdocs. revert context.
  induction Hdocs as [|doc docs Hdoc _ IH]; intros context; simpl.
  - rewrite app_nil_r. reflexivity.
  - rewrite (context_block_ok _ Hdoc). simpl. rewrite IH, <- app_assoc.
    reflexivity.
Qed.

Lemma rstrip_before_solid (a m b : pystr) :
  rstrip m = m -> is_empty m = false ->
  rstrip (a ++ m ++ b) = a ++ m ++ rstrip b.
Proof.
  intros Hm Hne. rewrite rstrip_app_keep; rewrite (rstrip_app_solid m b Hm).
  - reflexivity.
  - destruct m; [discriminate | reflexivity].
Qed.

Lemma block_of_split (doc : document) :
  block_of doc
  = block_front doc ++ py"answer:" ++ (py" " ++ doc !!! py"text") ++ nl ++ nl.
Proof. unfold block_of, block_front. rewrite <- !app_assoc. reflexivity. Qed.

Lemma last_block_of_split (doc : document) :
  last_block_of doc
  = block_front doc ++ py"answer:" ++ rstrip (py" " ++ doc !!! py"text").
Proof. unfold last_block_of, block_front. rewrite <- !app_assoc. reflexivity. Qed.

Lemma rstrip_block (pre : pystr) (doc : document) :
  rstrip (pre ++ block_of doc) = pre ++ last_block_of doc.
Proof.
  rewrite block_of_split, last_block_of_split.
  rewrite (app_assoc pre (block_front doc)).
  rewrite rstrip_before_solid by reflexivity.
  rewrite (rstrip_app_spaces _ (nl ++ nl)) by reflexivity.
  rewrite <- app_assoc. reflexivity.
Qed.

Lemma rstrip_blocks (pre : pystr) (docs : list document) :
  docs <> [] ->
  rstrip (pre ++ concat (block_of <$> docs)) = pre ++ stripped_blocks docs.
Proof.
  revert pre. induction docs as [|doc docs IH]; intros pre Hne; [done|].
  destruct docs as [|doc' docs].
  - simpl. rewrite app_nil_r. apply rstrip_block.
  - change (concat (block_of <$> doc :: doc' :: docs))
      with (block_of doc ++ concat (block_of <$> doc' :: docs)).
    rewrite app_assoc, IH by done. rewrite <- app_assoc. reflexivity.
Qed.

Lemma strip_formatted (query : pystr) (docs : list document) :
  strip (question_head ++ query ++ context_head ++ concat (block_of <$> docs))
  = question_head ++ query ++ stripped_context docs.
Proof.
  unfold strip. rewrite lstrip_question_head.
  destruct docs as [|doc docs].
  - simpl concat. rewrite app_nil_r, !app_assoc.
    change context_head with ((nl ++ nl ++ py"    ") ++ py"CONTEXT:" ++ py" " ++ nl ++ py"    ").
    rewrite app_assoc. rewrite rstrip_before_solid by reflexivity.
    simpl stripped_context. rewrite <- !app_assoc. reflexivity.
  - rewrite !app_assoc. rewrite rstrip_blocks by done.
    rewrite <- !app_assoc. reflexivity.
Qed.

(** The prompt built from documents that all have the three keys. *)
Lemma build_prompt_ok (query : pystr) (docs : list document) :
  Forall has_keys docs ->
  build_prompt query docs = Ok (question_head ++ query ++ stripped_context docs).
Proof.
  intros Hdocs. unfold build_prompt.
  rewrite (context_loop_ok [] docs Hdocs). cbn [mbind result_bind].
  rewrite format_prompt_template. cbn [mbind result_bind].
  rewrite app_nil_l, strip_formatted. reflexivity.
Qed.

(** ** Occurrences *)

Lemma prefixb_app (part post : pystr) : prefixb part (part ++ post) = true.
Proof.
  induction part as [|a part IH]; simpl; [reflexivity|].
  rewrite N.eqb_refl, IH. reflexivity.
Qed.

Lemma infixb_here (part s : pystr) : prefixb part s = true -> infixb part s = true.
Proof. intros H. destruct s; simpl; rewrite H; reflexivity. Qed.

Lemma occurs_in_infixb (part s : pystr) : occurs_in part s -> infixb part s = true.
Proof.
  intros (pre & post & ->). induction pre as [|c pre IH].
  - apply infixb_here. exact (prefixb_app part post).
  - simpl. rewrite IH. apply orb_true_r.
Qed.

Lemma occur_in_order_later (pre : pystr) parts (s : pystr) :
  occur_in_order parts s -> occur_in_order parts (pre ++ s).
Proof.
  destruct parts as [|part parts]; [done|].
  intros (pre' & post & -> & H). exists (pre ++ pre'), post.
  rewrite <- app_assoc. done.
Qed.

Lemma occur_in_order_here part parts (pre post : pystr) :
  occur_in_order parts post -> occur_in_order (part :: parts) (pre ++ part ++ post).
Proof. intros H. exists pre, post. done. Qed.

Lemma rstrip_after_space (text : pystr) :
  exists pre, rstrip (py" " ++ text) = pre ++ rstrip text.
Proof.
  change (py" " ++ text) with (32 :: text). simpl.
  destruct (rstrip text); simpl.
  - exists []. reflexivity.
  - exists [32]. reflexivity.
Qed.

Lemma block_of_in_order (doc : document) parts (s : pystr) :
  occur_in_order parts s ->
  occur_in_order (doc_values doc ++ parts) (block_of doc ++ s).
Proof.
  intros H. unfold block_of, doc_values. rewrite <- !app_assoc.
  apply occur_in_order_here, occur_in_order_later, occur_in_order_here.
  apply occur_in_order_later, occur_in_order_here.
  apply occur_in_order_later, occur_in_order_later, H.
Qed.

Lemma stripped_blocks_in_order (docs : list document) :
  occur_in_order (stripped_values docs) (stripped_blocks docs).
Proof.
  induction docs as [|doc docs IH]; [done|].
  destruct docs as [|doc' docs].
  - unfold stripped_blocks, stripped_values, last_block_of.
    destruct (rstrip_after_space (doc !!! py"text")) as [pre ->].
    apply occur_in_order_here, occur_in_order_later, occur_in_order_here.
    apply occur_in_order_later.
    exists (py"answer:" ++ pre), []. rewrite app_nil_r, <- app_assoc. done.
  - apply (block_of_in_order doc _ _ IH).
Qed.

Lemma stripped_context_in_order (docs : list document) :
  occur_in_order (stripped_values docs) (stripped_context docs).
Proof.
  destruct docs as [|doc docs]; [done|].
  apply occur_in_order_later, stripped_blocks_in_order.
Qed.

(** ** Missing keys *)

Lemma context_block_missing (doc : document) :
  ~ has_keys doc ->
  exists key, key ∈ prompt_keys /\ context_block doc = Raise (KeyError key).
Proof.
  intros Hno. unfold context_block, getitem, prompt_keys.
  destruct (doc !! py"section") as [s|] eqn:Hs;
    [|exists py"section"; split; [set_solver | reflexivity]].
  destruct (doc !! py"question") as [q|] eqn:Hq;
    [|exists py"question"; split; [set_solver | reflexivity]].
  destruct (doc !! py"text") as [t|] eqn:Ht;
    [|exists py"text"; split; [set_solver | reflexivity]].
  destruct Hno. unfold has_keys. rewrite Hs, Hq, Ht. eauto.
Qed.

Lemma context_loop_missing (context : pystr) (docs : list document) :
  Exists (fun doc => ~ has_keys doc) docs ->
  exists key, key ∈ prompt_keys /\ context_loop context docs = Raise (KeyError key).
Proof.
  revert context. induction docs as [|doc docs IH]; intros context Hex.
  - inversion Hex.
  - simpl. destruct (has_keys_dec doc) as [Hk|Hk].
    + rewrite (context_block_ok _ Hk). cbn [mbind result_bind].
      apply IH. inversion Hex; [contradiction | assumption].
    + destruct (context_block_missing _ Hk) as (key & Hin & ->).
      exists key. done.
Qed.

Ltac has_keys_now :=
  repeat first [ apply Forall_nil | apply Forall_cons; split | split ];
  vm_compute; eauto.

(** ** The prompt builder *)

(** C3, as stated, fails: [build_prompt] strips the formatted prompt, so the
    white space that ends the text of the last document is lost.  For the
    query "What is X?" and the single document [doc_trailing], which has the
    three keys and whose text is "X is Y." followed by a line feed, the
    prompt ends with "answer: X is Y." and the text value occurs nowhere in
    it. *)
Lemma build_prompt_trailing_text_lost :
  has_keys doc_trailing /\ (length [doc_trailing] <= 5)%nat /\
  exists prompt,
    build_prompt py"What is X?" [doc_trailing] = Ok prompt
    /\ ~ occurs_in (doc_trailing !!! py"text") prompt.
Proof.
  split; [has_keys_now|]. split; [simpl; lia|].
  eexists. split; [vm_compute; reflexivity|].
  intros H. apply occurs_in_infixb in H. vm_compute in H. discriminate.
Qed.

(** C3, amended: for every query and every list of documents that all have
    the keys 'section', 'question' and 'text' (of any length, so also for
    0 to 5 documents), [build_prompt] returns a string in which occur, one
    after the other, the query and then, for each document in list order, its
    section value, its question value and its text value; all values occur
    verbatim except the text of the last document, which occurs without the
    white space at its end. *)
Theorem build_prompt_mentions_documents (query : pystr) (docs : list document) :
  Forall has_keys docs ->
  exists prompt,
    build_prompt query docs = Ok prompt
    /\ occur_in_order (query :: stripped_values docs) prompt.
Proof.
  intros Hdocs. eexists. split; [apply (build_prompt_ok _ _ Hdocs)|].
  apply occur_in_order_here, stripped_context_in_order.
Qed.

Lemma build_prompt_mentions_documents_witness :
  Forall has_keys [doc_x; doc_x; doc_trailing] /\
  exists prompt,
    build_prompt py"What is X?" [doc_x; doc_x; doc_trailing] = Ok prompt
    /\ occur_in_order
         (py"What is X?" :: stripped_values [doc_x; doc_x; doc_trailing]) prompt.
Proof.
  split; [has_keys_now|].
  apply (build_prompt_mentions_documents py"What is X?" [doc_x; doc_x; doc_trailing]).
  has_keys_now.
Defined.

(** C4: for the search results
    [{"section":"General","question":"What is X?","text":"X is Y."}] and the
    query "What is X?", the prompt is the template with the question line
    "QUESTION: What is X?" and, after the CONTEXT line, the three lines of
    the document; the block of these three lines starts at exactly one
    position of the prompt, as do the labels "section: " and "answer: ". *)
Theorem build_prompt_single_document :
  let block :=
    py"section: General" ++ nl ++ py"question: What is X?" ++ nl ++ py"answer: X is Y." in
  let prompt :=
    py"You're a course teaching assistant. Answer the QUESTION based on the CONTEXT from the FAQ database." ++ nl ++
    py"    Use only the facts from the CONTEXT when answering the QUESTION." ++ nl ++
    nl ++
    py"    QUESTION: What is X?" ++ nl ++
    nl ++
    py"    CONTEXT: " ++ nl ++
    py"    " ++ block in
  build_prompt py"What is X?" [doc_x] = Ok prompt
  /\ count_infix block prompt = 1%nat
  /\ count_infix py"section: " prompt = 1%nat
  /\ count_infix py"answer: " prompt = 1%nat
  /\ occurs_in py"QUESTION: What is X?" prompt.
Proof.
  intros block prompt. repeat split; try (vm_compute; reflexivity).
  exists (py"You're a course teaching assistant. Answer the QUESTION based on the CONTEXT from the FAQ database." ++ nl ++
          py"    Use only the facts from the CONTEXT when answering the QUESTION." ++ nl ++
          nl ++ py"    "),
         (nl ++ nl ++ py"    CONTEXT: " ++ nl ++ py"    " ++ block).
  vm_compute. reflexivity.
Qed.

(** C6: for every query, [build_prompt] applied to the empty list returns
    normally: the result is the template formatted with the empty context
    and stripped, that is, the text up to "CONTEXT:", and the query occurs in
    it. *)
Theorem build_prompt_empty_results (query : pystr) :
  build_prompt query []
  = Ok (question_head ++ query ++ nl ++ nl ++ py"    CONTEXT:")
  /\ build_prompt query []
     = (formatted ← str_format prompt_template
                      [(py"question", query); (py"context", py"")];
        Ok (strip formatted))
  /\ occurs_in query (question_head ++ query ++ nl ++ nl ++ py"    CONTEXT:").
Proof.
  split; [apply (build_prompt_ok query []); constructor|].
  split; [reflexivity|].
  exists question_head, (nl ++ nl ++ py"    CONTEXT:"). reflexivity.
Qed.

Lemma build_prompt_returns (query : pystr) (docs : list document) :
  Forall has_keys docs -> exists prompt, build_prompt query docs = Ok prompt.
Proof. intros Hdocs. eexists. apply (build_prompt_ok _ _ Hdocs). Qed.

(** C9: [build_prompt] returns a prompt for every query and every list of
    documents that all have the keys 'section', 'question' and 'text'; for a
    list with a document that lacks one of them it raises [KeyError] for one
    of the three keys; and for the empty list it returns, it does not raise
    the [ValueError] of its docstring. *)
Theorem build_prompt_total_on_keys (query : pystr) (docs : list document) :
  (Forall has_keys docs -> exists prompt, build_prompt query docs = Ok prompt)
  /\ (Exists (fun doc => ~ has_keys doc) docs ->
      exists key, key ∈ prompt_keys /\ build_prompt query docs = Raise (KeyError key))
  /\ (exists prompt, build_prompt query [] = Ok prompt).
Proof.
  split; [|split].
  - intros Hdocs. eexists. apply (build_prompt_ok _ _ Hdocs).
  - intros Hex. destruct (context_loop_missing [] docs Hex) as (key & Hin & Hloop).
    exists key. split; [exact Hin|]. unfold build_prompt. rewrite Hloop. reflexivity.
  - eexists. apply (build_prompt_ok query []). constructor.
Qed.

Lemma build_prompt_total_on_keys_witness :
  (exists prompt, build_prompt py"What is X?" [doc_x; doc_trailing] = Ok prompt)
  /\ (exists key, key ∈ prompt_keys
        /\ build_prompt py"What is X?" [doc_x; doc_untexted; doc_x] = Raise (KeyError key)).
Proof.
  split.
  - apply (build_prompt_total_on_keys py"What is X?" [doc_x; doc_trailing]).
    has_keys_now.
  - apply (build_prompt_total_on_keys py"What is X?" [doc_x; doc_untexted; doc_x]).
    apply Exists_cons_tl, Exists_cons_hd. intros (_ & _ & [v Hv]).
    vm_compute in Hv. discriminate.
Defined.

(** ** The clients and the orchestrator *)

Ltac run_M :=
  unfold print, lift, raise, mbind, M_bind, mret, M_ret;
  cbn beta iota; cbn [fst snd].

Section ProgramProperties.

Variable es : pystr -> json -> result search_response.
Variable chat : chat_request -> result chat_response.

Lemma result_docs_sources (hs : list hit) (acc : list document) :
  foldl (fun result_docs hit => result_docs ++ [_source hit]) acc hs
  = acc ++ (_source <$> hs).
Proof.
  revert acc. induction hs as [|h hs IH]; intros acc; simpl.
  - rewrite app_nil_r. reflexivity.
  - rewrite IH, <- app_assoc. reflexivity.
Qed.

Lemma elastic_search_run (query index_name : pystr) (t : list event) :
  elastic_search es query index_name t
  = (t ++ [Search index_name (search_query query)],
     match es index_name (search_query query) with
     | Ok response => Ok (_source <$> hits response)
     | Raise e => Raise e
     end).
Proof.
  unfold elastic_search. run_M.
  destruct (es index_name (search_query query)) as [response|e].
  - rewrite result_docs_sources. reflexivity.
  - reflexivity.
Qed.

Lemma llm_run (prompt : pystr) (t : list event) :
  llm chat prompt t
  = (t ++ [ChatCompletion (llm_request prompt)],
     match chat (llm_request prompt) with
     | Ok response =>
         match choices response with
         | choice :: _ => Ok (content (message choice))
         | [] => Raise IndexError
         end
     | Raise e => Raise e
     end).
Proof.
  unfold llm. run_M. fold (llm_request prompt).
  destruct (chat (llm_request prompt)) as [response|e]; [|reflexivity].
  destruct (choices response); reflexivity.
Qed.

(** C2: for every query (the empty one included), every index name and every
    trace, [elastic_search] sends exactly one search request, whose body has
    size 5, a multi_match clause on the fields question^3, text and section,
    read by the service as question with boost 3 and text and section with
    boost 1, and a term filter course = "data-engineering-zoomcamp"; the
    query is the text of the multi_match clause and nothing else of the body
    depends on it: putting another query text there gives the body built for
    that query. *)
Theorem search_request_fixed (query index_name : pystr) (t : list event) :
  let body := search_query query in
  (elastic_search es query index_name t).1 = t ++ [Search index_name body]
  /\ jget [py"size"] body = Some (JInt 5)
  /\ jget fields_path body
     = Some (JList [JStr py"question^3"; JStr py"text"; JStr py"section"])
  /\ field_boost <$> [JStr py"question^3"; JStr py"text"; JStr py"section"]
     = [Some (py"question", 3); Some (py"text", 1); Some (py"section", 1)]
  /\ jget course_path body = Some (JStr py"data-engineering-zoomcamp")
  /\ jget query_path body = Some (JStr query)
  /\ (forall query', jset query_path (JStr query') body = search_query query').
Proof.
  intros body. rewrite elastic_search_run.
  repeat split; try intros query'; vm_compute; reflexivity.
Qed.

(** C5: for every prompt, [llm] sends exactly one request, whose messages
    list has the single message with role "user" and the prompt as content;
    when the service answers with a response whose first choice is [choice],
    [llm] returns the content of the message of [choice] as it is. *)
Theorem llm_single_user_message (prompt : pystr) (t : list event)
    (response : chat_response) (choice : chat_choice) :
  chat (llm_request prompt) = Ok response ->
  choices response !! 0%nat = Some choice ->
  messages (llm_request prompt) = [ {| role := py"user"; content := prompt |} ]
  /\ llm chat prompt t
     = (t ++ [ChatCompletion (llm_request prompt)], Ok (content (message choice))).
Proof.
  intros Hchat Hchoice. split; [reflexivity|].
  rewrite llm_run, Hchat. destruct (choices response); [discriminate|].
  injection Hchoice as ->. reflexivity.
Qed.

Lemma rag_result (query : pystr) (t : list event) :
  (rag es chat query t).2 = (pipeline es chat query t).2.
Proof.
  unfold rag, pipeline. run_M. rewrite !elastic_search_run.
  destruct (es _ _) as [response|e]; [|reflexivity].
  destruct (build_prompt query _) as [prompt|e]; [|reflexivity].
  run_M. rewrite !llm_run.
  destruct (chat _) as [r|e]; [|reflexivity].
  destruct (choices r); reflexivity.
Qed.

Lemma rag_run_search_fails (query : pystr) (t : list event) (e : exn) :
  es default_index_name (search_query query) = Raise e ->
  rag es chat query t
  = (t ++ [Print marker_search; Search default_index_name (search_query query)],
     Raise e).
Proof.
  intros Hes. unfold rag. run_M. rewrite elastic_search_run, Hes.
  rewrite <- app_assoc. reflexivity.
Qed.

Lemma rag_run_prompt (query : pystr) (t : list event)
    (response : search_response) (prompt : pystr) :
  es default_index_name (search_query query) = Ok response ->
  build_prompt query (_source <$> hits response) = Ok prompt ->
  rag es chat query t
  = (t ++ [Print marker_search; Search default_index_name (search_query query);
           Print marker_prompt; Print marker_llm;
           ChatCompletion (llm_request prompt)]
       ++ match chat (llm_request prompt) with
          | Ok {| choices := _ :: _ |} => [Print marker_return]
          | _ => []
          end,
     match chat (llm_request prompt) with
     | Ok response =>
         match choices response with
         | choice :: _ => Ok (content (message choice))
         | [] => Raise IndexError
         end
     | Raise e => Raise e
     end).
Proof.
  intros Hes Hprompt. unfold rag. run_M. rewrite elastic_search_run, Hes, Hprompt.
  run_M. rewrite llm_run.
  destruct (chat (llm_request prompt)) as [[[|choice rest]]|e];
    rewrite <- ?app_assoc; simpl; rewrite ?app_nil_r; reflexivity.
Qed.

(** C1: for every query, what [rag] returns or raises is what the three
    calls in sequence do: the completion client applied to the prompt built
    from the query and the documents found for it.  When the search client
    is a stub that returns documents having the three keys and the
    completion client is a stub that returns the single choice [answer],
    [rag] returns [answer] itself, after one search request and one
    completion request. *)
Theorem rag_returns_completion (query : pystr) (t : list event) :
  (rag es chat query t).2 = (pipeline es chat query t).2
  /\ forall (docs : list document) (answer : pystr),
       Forall has_keys docs ->
       (forall index body, es index body = Ok {| hits := Build_hit <$> docs |}) ->
       (forall request,
          chat request
          = Ok {| choices := [ {| message := {| role := py"assistant"; content := answer |} |} ] |}) ->
       exists prompt,
         build_prompt query docs = Ok prompt
         /\ rag es chat query t
            = (t ++ [Print marker_search; Search default_index_name (search_query query);
                     Print marker_prompt; Print marker_llm;
                     ChatCompletion (llm_request prompt); Print marker_return],
               Ok answer).
Proof.
  split; [apply rag_result|].
  intros docs answer Hdocs Hes Hchat.
  destruct (build_prompt_returns query docs Hdocs) as [prompt Hprompt].
  exists prompt. split; [exact Hprompt|].
  rewrite (rag_run_prompt query t _ prompt (Hes _ _)).
  - rewrite Hchat. reflexivity.
  - cbn [hits]. rewrite <- list_fmap_compose, list_fmap_id. exact Hprompt.
Qed.

(** C7: when the search call raises [e], [rag] raises [e] after the first
    marker and the search request: the marker of the prompt builder is not
    printed and no completion request is sent; when the search and the
    prompt builder succeed and the completion call raises [e], [rag] raises
    [e].  The handlers catch nothing either, whatever [self.rag] is: when it
    is unbound, as in the class, the [AttributeError] of the lookup, and when
    it is bound, any exception [e'] of the call, is raised by
    [finish_processing], which assigns neither property, and ends the event
    loop, no later state of the form being observed; and
    [finish_processing] returns only when [self.rag] is bound and the call
    returned an answer, the output text then being "Output: " followed by
    that answer: no other value stands in for an answer. *)
Theorem failures_propagate (query : pystr) (t : list event) (e : exn) :
  (es default_index_name (search_query query) = Raise e ->
   rag es chat query t
   = (t ++ [Print marker_search; Search default_index_name (search_query query)],
      Raise e))
  /\ (forall response prompt,
        es default_index_name (search_query query) = Ok response ->
        build_prompt query (_source <$> hits response) = Ok prompt ->
        chat (llm_request prompt) = Raise e ->
        rag es chat query t
        = (t ++ [Print marker_search; Search default_index_name (search_query query);
                 Print marker_prompt; Print marker_llm;
                 ChatCompletion (llm_request prompt)],
           Raise e))
  /\ (forall (App_rag : option (pystr -> M pystr)) (w : ui_state) cb rest t' e' evs,
        scheduled w = cb :: rest ->
        match App_rag with
        | None => t' = t /\ e' = AttributeError py"rag"
        | Some self_rag => self_rag (input_text (app w)) t = (t', Raise e')
        end ->
        finish_processing App_rag (app w) t = (t', Raise e')
        /\ ui_run App_rag (ClockFires :: evs) w t = ([], Some e', t'))
  /\ (forall (App_rag : option (pystr -> M pystr)) (self self' : MyTextInputApp) t',
        finish_processing App_rag self t = (t', Ok self') ->
        exists self_rag answer,
          App_rag = Some self_rag
          /\ self_rag (input_text self) t = (t', Ok answer)
          /\ self' = {| input_text := input_text self;
                        output_text := py"Output: " ++ answer;
                        is_loading := false |}).
Proof.
  split; [apply rag_run_search_fails|]. split; [|split].
  - intros response prompt Hes Hprompt Hchat.
    rewrite (rag_run_prompt query t response prompt Hes Hprompt), Hchat.
    rewrite app_nil_r. reflexivity.
  - intros App_rag w [[] delay] rest t' e' evs Hsched Hrag.
    assert (Hfin : finish_processing App_rag (app w) t = (t', Raise e')).
    { destruct App_rag as [self_rag|].
      - unfold finish_processing. run_M. rewrite Hrag. reflexivity.
      - destruct Hrag as [-> ->]. reflexivity. }
    split; [exact Hfin|].
    cbn [ui_run ui_step]. rewrite Hsched. unfold run_callback. run_M.
    rewrite Hfin. reflexivity.
  - intros [self_rag|] self self' t' Hfin; [|discriminate].
    unfold finish_processing in Hfin. run_M.
    revert Hfin. unfold mbind, M_bind, mret, M_ret.
    destruct (self_rag (input_text self) t) as [t'' [answer|e'']] eqn:Hcall;
      [|discriminate].
    intros [= <- <-]. exists self_rag, answer.
    split; [reflexivity|]. split; [exact Hcall | reflexivity].
Qed.

End ProgramProperties.

Lemma rag_returns_completion_witness :
  Forall has_keys [doc_course] /\
  exists prompt,
    build_prompt py"How do I join the course?" [doc_course] = Ok prompt
    /\ rag es_stub chat_stub py"How do I join the course?" []
       = ([Print marker_search;
           Search default_index_name (search_query py"How do I join the course?");
           Print marker_prompt; Print marker_llm;
           ChatCompletion (llm_request prompt); Print marker_return],
          Ok py"Register on the course page.").
Proof.
  split; [has_keys_now|].
  apply (proj2 (rag_returns_completion es_stub chat_stub py"How do I join the course?" [])
           [doc_course] py"Register on the course page.").
  - has_keys_now.
  - reflexivity.
  - reflexivity.
Defined.

Lemma llm_single_user_message_witness :
  messages (llm_request py"What is X?") = [ {| role := py"user"; content := py"What is X?" |} ]
  /\ llm chat_stub py"What is X?" []
     = ([ChatCompletion (llm_request py"What is X?")], Ok py"Register on the course page.").
Proof.
  apply (llm_single_user_message chat_stub py"What is X?" []
           {| choices :=
                [ {| message := {| role := py"assistant";
                                   content := py"Register on the course page." |} |} ] |}
           {| message := {| role := py"assistant";
                            content := py"Register on the course page." |} |}).
  - reflexivity.
  - reflexivity.
Defined.

Lemma failures_propagate_witness :
  rag es_down chat_stub py"How do I join the course?" []
  = ([Print marker_search;
      Search default_index_name (search_query py"How do I join the course?")],
     Raise (ServiceError py"connection refused"))
  /\ (exists prompt,
        rag es_stub chat_down py"How do I join the course?" []
        = ([Print marker_search;
            Search default_index_name (search_query py"How do I join the course?");
            Print marker_prompt; Print marker_llm;
            ChatCompletion (llm_request prompt)],
           Raise (ServiceError py"model not found")))
  /\ ui_run None [ClockFires; AskClicked] ui_asked []
     = ([], Some (AttributeError py"rag"), [])
  /\ ui_run (Some (rag es_down chat_stub)) [ClockFires; AskClicked] ui_asked []
     = ([], Some (ServiceError py"connection refused"),
        [Print marker_search;
         Search default_index_name (search_query py"How do I join the course?")])
  /\ (exists self_rag t' answer,
        Some (rag es_stub chat_stub) = Some self_rag
        /\ self_rag (input_text (app ui_asked)) [] = (t', Ok answer)).
Proof.
  split; [|split; [|split; [|split]]].
  - apply (proj1 (failures_propagate es_down chat_stub py"How do I join the course?" []
                    (ServiceError py"connection refused"))).
    reflexivity.
  - eexists.
    apply (proj1 (proj2 (failures_propagate es_stub chat_down
                           py"How do I join the course?" []
                           (ServiceError py"model not found")))
             {| hits := [ {| _source := doc_course |} ] |}).
    + reflexivity.
    + vm_compute. reflexivity.
    + reflexivity.
  - apply (proj1 (proj2 (proj2 (failures_propagate es_down chat_stub
                                  py"How do I join the course?" []
                                  (ServiceError py"connection refused"))))
             None ui_asked (FinishProcessing, 2) []).
    + reflexivity.
    + split; reflexivity.
  - apply (proj1 (proj2 (proj2 (failures_propagate es_down chat_stub
                                  py"How do I join the course?" []
                                  (ServiceError py"connection refused"))))
             (Some (rag es_down chat_stub)) ui_asked (FinishProcessing, 2) []).
    + reflexivity.
    + reflexivity.
  - edestruct (proj2 (proj2 (proj2 (failures_propagate es_stub chat_stub
                                      py"How do I join the course?" []
                                      (ServiceError py"connection refused"))))
                 (Some (rag es_stub chat_stub)) (app ui_asked))
      as (self_rag & answer & Hbound & Hcall & _).
    + vm_compute. reflexivity.
    + exists self_rag. eexists. exists answer. split; [exact Hbound | exact Hcall].
Defined.

(** ** The form *)

(** The class body binds no name [rag]. *)
Lemma rag_not_in_class_namespace : py"rag" ∉ class_namespace.
Proof. apply (proj1 (bool_decide_eq_false _)). vm_compute. reflexivity. Qed.

Lemma on_ask_clicked_busy (w : ui_state) : busy (on_ask_clicked w).
Proof.
  unfold busy, on_ask_clicked. cbn. repeat split.
  destruct (scheduled w); discriminate.
Qed.

(** What the handler would do if the base class did provide [rag]. *)
Lemma finish_processing_with_rag (self_rag : pystr -> M pystr)
    (self : MyTextInputApp) (t t' : list event) (answer : pystr) :
  self_rag (input_text self) t = (t', Ok answer) ->
  finish_processing (Some self_rag) self t
  = (t', Ok {| input_text := input_text self;
               output_text := py"Output: " ++ answer;
               is_loading := false |}).
Proof. intros H. unfold finish_processing. run_M. rewrite H. reflexivity. Qed.

Lemma ui_step_busy (w : ui_state) (ev : ui_event) (t : list event) :
  busy w ->
  ui_step None w ev t
  = (if bool_decide (ev = ClockFires) then (t, Raise (AttributeError py"rag"))
     else (t, Ok (match ev with
                  | TextChanged text => on_text_changed w text
                  | _ => on_ask_clicked w
                  end)))
  /\ (ev <> ClockFires ->
      busy (match ev with
            | TextChanged text => on_text_changed w text
            | _ => on_ask_clicked w
            end)).
Proof.
  intros (Hl & Ho & Hs). split.
  - destruct ev; try reflexivity. cbn [ui_step].
    destruct (scheduled w) as [|[[] delay] rest]; [done|]. reflexivity.
  - intros Hev. destruct ev; [|apply on_ask_clicked_busy|done].
    unfold busy. cbn. done.
Qed.

Lemma ui_run_busy (evs : list ui_event) (w : ui_state) (t : list event) :
  busy w ->
  Forall busy (ui_run None evs w t).1.1
  /\ (ui_run None evs w t).1.2
     = (if bool_decide (ClockFires ∈ evs) then Some (AttributeError py"rag") else None)
  /\ (ui_run None evs w t).2 = t.
Proof.
  revert w. induction evs as [|ev evs IH]; intros w Hw.
  - cbn. repeat split. constructor.
  - destruct (ui_step_busy w ev t Hw) as [Hstep Hbusy].
    cbn [ui_run]. rewrite Hstep. case_bool_decide as Hev.
    + subst ev. cbn [fst snd].
      rewrite bool_decide_eq_true_2 by (apply elem_of_cons; left; reflexivity).
      repeat split. constructor.
    + specialize (Hbusy Hev). destruct (IH _ Hbusy) as (IH1 & IH2 & IH3).
      destruct (ui_run None evs _ t) as [[ws e] t'] eqn:Hrun. cbn [fst snd] in *.
      split; [constructor; assumption|]. split; [|assumption].
      rewrite IH2.
      rewrite (bool_decide_ext (ClockFires ∈ evs) (ClockFires ∈ ev :: evs));
        [reflexivity|].
      rewrite elem_of_cons. split; [tauto|]. intros [Heq|Hin]; [|exact Hin].
      destruct Hev. symmetry. exact Heq.
Qed.

(** C8 (the code departs from it): the flag [is_loading] is true as soon as
    [on_ask_clicked] has run, but the deferred callback never completes:
    [self.rag] does not exist, [finish_processing] raises [AttributeError]
    before it assigns anything, and in every state the event loop shows
    after a submit, whatever events follow, [is_loading] is still true and
    the output text is still "Processing...". *)
Theorem busy_flag_never_cleared (evs : list ui_event) (w : ui_state) (t : list event) :
  is_loading (app (on_ask_clicked w)) = true
  /\ Forall (fun w' => is_loading (app w') = true
                      /\ output_text (app w') = py"Processing...")
       (ui_run None evs (on_ask_clicked w) t).1.1
  /\ (ui_run None evs (on_ask_clicked w) t).1.2
     = (if bool_decide (ClockFires ∈ evs) then Some (AttributeError py"rag") else None).
Proof.
  destruct (ui_run_busy evs _ t (on_ask_clicked_busy w)) as (H1 & H2 & _).
  split; [reflexivity|]. split; [|exact H2].
  eapply Forall_impl; [exact H1|]. intros w' (Hl & Ho & _). done.
Qed.

(** C10 (the code departs from it): [on_ask_clicked] sets the output text to
    "Processing...", but [finish_processing] never sets it to "Output: "
    followed by the answer: it raises [AttributeError] for [self.rag] and
    leaves the form as it was.  After the question "How do I join the
    course?" is typed and Ask is pressed, the callback of the clock ends the
    event loop with that exception, no request having been sent. *)
Theorem finish_processing_attribute_error (self : MyTextInputApp) (w : ui_state)
    (t : list event) :
  output_text (app (on_ask_clicked w)) = py"Processing..."
  /\ finish_processing None self t = (t, Raise (AttributeError py"rag"))
  /\ ui_run None [TextChanged py"How do I join the course?"; AskClicked; ClockFires]
       ui_initial t
     = ([on_text_changed ui_initial py"How do I join the course?"; ui_asked],
        Some (AttributeError py"rag"), t)
  /\ output_text (app ui_asked) = py"Processing..."
  /\ is_loading (app ui_asked) = true.
Proof. repeat split. Qed.

(** * Further properties of the code *)

(** ** The prompt builder *)

Lemma lstrip_idem (s : pystr) : lstrip (lstrip s) = lstrip s.
Proof.
  induction s as [|c s IH]; [reflexivity|]. simpl.
  destruct (isspace c) eqn:Hc; [exact IH|]. simpl. rewrite Hc. reflexivity.
Qed.

Lemma rstrip_idem (s : pystr) : rstrip (rstrip s) = rstrip s.
Proof.
  induction s as [|c s IH]; [reflexivity|]. simpl.
  destruct (isspace c && is_empty (rstrip s)) eqn:Hc; [reflexivity|].
  simpl. rewrite IH, Hc. reflexivity.
Qed.

Lemma lstrip_rstrip_lstrip (s : pystr) : lstrip (rstrip (lstrip s)) = rstrip (lstrip s).
Proof.
  induction s as [|c s IH]; [reflexivity|]. simpl.
  destruct (isspace c) eqn:Hc; [exact IH|]. simpl. rewrite Hc. simpl.
  rewrite Hc. reflexivity.
Qed.

Lemma strip_idem (s : pystr) : strip (strip s) = strip s.
Proof. unfold strip. rewrite lstrip_rstrip_lstrip, rstrip_idem. reflexivity. Qed.

Lemma context_loop_app (context : pystr) (docs docs' : list document) :
  context_loop context (docs ++ docs')
  = (context' ← context_loop context docs; context_loop context' docs').
Proof.
  revert context. induction docs as [|doc docs IH]; intros context; [reflexivity|].
  simpl. destruct (context_block doc) as [block|e]; [|reflexivity].
  cbn [mbind result_bind]. apply IH.
Qed.

Lemma context_block_first_missing (doc : document) (key : pystr) :
  first_missing doc = Some key -> context_block doc = Raise (KeyError key).
Proof.
  unfold first_missing, context_block, getitem, prompt_keys.
  rewrite !filter_cons, filter_nil.
  destruct (doc !! py"section") as [s|];
    [rewrite decide_False by done | rewrite decide_True by done; intros [= <-]; reflexivity].
  destruct (doc !! py"question") as [q|];
    [rewrite decide_False by done | rewrite decide_True by done; intros [= <-]; reflexivity].
  destruct (doc !! py"text") as [x|];
    [rewrite decide_False by done | rewrite decide_True by done; intros [= <-]; reflexivity].
  discriminate.
Qed.

Lemma build_prompt_missing (query : pystr) (docs : list document) :
  Exists (fun doc => ~ has_keys doc) docs ->
  exists key, key ∈ prompt_keys /\ build_prompt query docs = Raise (KeyError key).
Proof.
  intros Hex. destruct (context_loop_missing [] docs Hex) as (key & Hin & Hloop).
  exists key. split; [exact Hin|]. unfold build_prompt. rewrite Hloop. reflexivity.
Qed.

Lemma build_prompt_inv (query : pystr) (docs : list document) (prompt : pystr) :
  build_prompt query docs = Ok prompt ->
  Forall has_keys docs /\ prompt = question_head ++ query ++ stripped_context docs.
Proof.
  intros Hp. destruct (decide (Forall has_keys docs)) as [Hk|Hk].
  - split; [exact Hk|]. rewrite (build_prompt_ok _ _ Hk) in Hp. congruence.
  - apply not_Forall_Exists in Hk; [|apply _].
    destruct (build_prompt_missing query docs Hk) as (key & _ & Hr). congruence.
Qed.

(** X1: when the documents before the first one that lacks a key all have
    the three keys, [build_prompt] raises [KeyError] for the first key that
    document lacks, in the order section, question, text, whatever follows
    it in the list. *)
Theorem build_prompt_first_missing_key (query : pystr)
    (good : list document) (bad : document) (rest : list document) (key : pystr) :
  Forall has_keys good ->
  first_missing bad = Some key ->
  build_prompt query (good ++ bad :: rest) = Raise (KeyError key).
Proof.
  intros Hgood Hbad. unfold build_prompt.
  rewrite context_loop_app, (context_loop_ok [] good Hgood).
  cbn [mbind result_bind context_loop].
  rewrite (context_block_first_missing _ _ Hbad). reflexivity.
Qed.

Lemma build_prompt_first_missing_key_witness :
  build_prompt py"What is X?" ([doc_x; doc_course] ++ doc_untexted :: [∅; doc_x])
  = Raise (KeyError py"text").
Proof.
  apply (build_prompt_first_missing_key py"What is X?" [doc_x; doc_course]
           doc_untexted [∅; doc_x] py"text").
  - has_keys_now.
  - vm_compute. reflexivity.
Defined.

(** X2: the prompt depends on the documents only through their section,
    question and text: two lists whose documents agree on these three keys,
    whatever other keys (such as course) they carry, give the same result,
    be it a prompt or a [KeyError]. *)
Theorem build_prompt_ignores_other_fields (query : pystr) (docs docs' : list document) :
  Forall2 same_fields docs docs' ->
  build_prompt query docs = build_prompt query docs'.
Proof.
  intros Hsame. unfold build_prompt.
  assert (Hloop : forall context, context_loop context docs = context_loop context docs').
  { induction Hsame as [|doc doc' docs docs' (Hs & Hq & Ht) _ IH]; intros context;
      [reflexivity|].
    simpl. unfold context_block, getitem. rewrite Hs, Hq, Ht.
    destruct (doc' !! py"section"); [|reflexivity].
    destruct (doc' !! py"question"); [|reflexivity].
    destruct (doc' !! py"text"); [|reflexivity].
    cbn [mbind result_bind]. apply IH. }
  rewrite Hloop. reflexivity.
Qed.

Lemma build_prompt_ignores_other_fields_witness :
  build_prompt py"How do I join the course?" [doc_course; doc_x]
  = build_prompt py"How do I join the course?"
      [delete py"course" doc_course; <[py"course" := py"mlops-zoomcamp"]> doc_x].
Proof.
  apply (build_prompt_ignores_other_fields py"How do I join the course?"
           [doc_course; doc_x]
           [delete py"course" doc_course; <[py"course" := py"mlops-zoomcamp"]> doc_x]).
  repeat constructor; vm_compute; reflexivity.
Defined.

(** X3: whenever [build_prompt] returns a prompt, every document had the
    three keys and the prompt is the instruction text, the query as it was
    given (braces in it are not read as template fields), and the context
    with the blocks of the documents, stripped at its end. *)
Theorem build_prompt_exact (query : pystr) (docs : list document) (prompt : pystr) :
  build_prompt query docs = Ok prompt ->
  Forall has_keys docs /\ prompt = question_head ++ query ++ stripped_context docs.
Proof. apply build_prompt_inv. Qed.

Lemma build_prompt_exact_witness :
  Forall has_keys [doc_x]
  /\ question_head ++ py"{context} or {0}?" ++ context_head
       ++ py"section: General" ++ nl ++ py"question: What is X?" ++ nl
       ++ py"answer: X is Y."
     = question_head ++ py"{context} or {0}?" ++ stripped_context [doc_x].
Proof.
  apply (build_prompt_exact py"{context} or {0}?" [doc_x]).
  vm_compute. reflexivity.
Defined.

(** X4: a prompt returned by [build_prompt] is never empty and has no white
    space at its start or at its end: stripping it again changes nothing. *)
Theorem build_prompt_trimmed (query : pystr) (docs : list document) (prompt : pystr) :
  build_prompt query docs = Ok prompt ->
  prompt <> [] /\ strip prompt = prompt.
Proof.
  intros Hp. split.
  - destruct (build_prompt_inv _ _ _ Hp) as [_ ->]. discriminate.
  - unfold build_prompt in Hp.
    destruct (context_loop [] docs) as [context|e]; [|discriminate].
    cbn [mbind result_bind] in Hp.
    destruct (str_format _ _) as [formatted|e]; [|discriminate].
    injection Hp as <-. apply strip_idem.
Qed.

Lemma build_prompt_trimmed_witness :
  exists prompt,
    build_prompt py"  What is X?  " [doc_trailing] = Ok prompt
    /\ prompt <> [] /\ strip prompt = prompt.
Proof.
  eexists. split; [vm_compute; reflexivity|].
  apply (build_prompt_trimmed py"  What is X?  " [doc_trailing]).
  vm_compute. reflexivity.
Defined.

(** ** The search client and the orchestrator *)

Section FurtherProperties.

Variable es : pystr -> json -> result search_response.
Variable chat : chat_request -> result chat_response.

Lemma rag_run_prompt_fails (query : pystr) (t : list event)
    (response : search_response) (e : exn) :
  es default_index_name (search_query query) = Ok response ->
  build_prompt query (_source <$> hits response) = Raise e ->
  rag es chat query t
  = (t ++ [Print marker_search; Search default_index_name (search_query query);
           Print marker_prompt],
     Raise e).
Proof.
  intros Hes Hprompt. unfold rag. run_M. rewrite elastic_search_run, Hes, Hprompt.
  rewrite <- !app_assoc. reflexivity.
Qed.

(** X5: when the service answers, [elastic_search] returns the document of
    every hit, in the order of the hits: as many documents as hits, however
    many there are, the i-th being the ['_source'] of the i-th hit. *)
Theorem elastic_search_returns_sources (query index_name : pystr) (t : list event)
    (response : search_response) :
  es index_name (search_query query) = Ok response ->
  exists docs,
    elastic_search es query index_name t
    = (t ++ [Search index_name (search_query query)], Ok docs)
    /\ length docs = length (hits response)
    /\ forall i, docs !! i = _source <$> hits response !! i.
Proof.
  intros Hes. exists (_source <$> hits response).
  rewrite elastic_search_run, Hes. split; [reflexivity|].
  split; [apply length_fmap|]. intros i. apply list_lookup_fmap.
Qed.

(** X6: whatever the two services do, [rag] keeps the trace it starts from
    and adds to it exactly one search request, on the index
    "course-questions-docker" with the body built for the query, and a
    completion request only when the search answered and the prompt was
    built: then exactly one, for that prompt. *)
Theorem rag_requests (query : pystr) (t : list event) :
  exists suffix,
    (rag es chat query t).1 = t ++ suffix
    /\ List.filter is_search suffix
       = [Search default_index_name (search_query query)]
    /\ List.filter is_chat suffix
       = match es default_index_name (search_query query) with
         | Ok response =>
             match build_prompt query (_source <$> hits response) with
             | Ok prompt => [ChatCompletion (llm_request prompt)]
             | Raise _ => []
             end
         | Raise _ => []
         end.
Proof.
  destruct (es default_index_name (search_query query)) as [response|e] eqn:Hes.
  - destruct (build_prompt query (_source <$> hits response)) as [prompt|e] eqn:Hp.
    + rewrite (rag_run_prompt es chat query t response prompt Hes Hp).
      eexists. split; [reflexivity|].
      destruct (chat (llm_request prompt)) as [[[|choice rest]]|e]; split; reflexivity.
    + rewrite (rag_run_prompt_fails query t response e Hes Hp).
      eexists. split; [reflexivity|]. split; reflexivity.
  - rewrite (rag_run_search_fails es chat query t e Hes).
    eexists. split; [reflexivity|]. split; reflexivity.
Qed.

(** X7: when the search answers with a hit whose document lacks one of the
    keys section, question and text, [rag] raises [KeyError] for one of
    them after the marker of the prompt builder: no completion request is
    sent. *)
Theorem rag_key_error (query : pystr) (t : list event) (response : search_response) :
  es default_index_name (search_query query) = Ok response ->
  Exists (fun hit => ~ has_keys (_source hit)) (hits response) ->
  exists key,
    key ∈ prompt_keys
    /\ rag es chat query t
       = (t ++ [Print marker_search; Search default_index_name (search_query query);
                Print marker_prompt],
          Raise (KeyError key)).
Proof.
  intros Hes Hex.
  destruct (build_prompt_missing query (_source <$> hits response)) as (key & Hin & Hp).
  { apply Exists_fmap. exact Hex. }
  exists key. split; [exact Hin|]. apply (rag_run_prompt_fails query t response _ Hes Hp).
Qed.

(** X8: when the completion service answers with an empty list of choices,
    [rag] raises [IndexError] after the completion request; the last marker
    is not printed. *)
Theorem rag_no_choice (query : pystr) (t : list event)
    (response : search_response) (prompt : pystr) (completion : chat_response) :
  es default_index_name (search_query query) = Ok response ->
  build_prompt query (_source <$> hits response) = Ok prompt ->
  chat (llm_request prompt) = Ok completion ->
  choices completion = [] ->
  rag es chat query t
  = (t ++ [Print marker_search; Search default_index_name (search_query query);
           Print marker_prompt; Print marker_llm;
           ChatCompletion (llm_request prompt)],
     Raise IndexError).
Proof.
  intros Hes Hp Hchat Hnone.
  rewrite (rag_run_prompt es chat query t response prompt Hes Hp), Hchat.
  destruct completion as [cs]. cbn [choices] in Hnone. subst cs.
  rewrite app_nil_r. reflexivity.
Qed.

(** X9: when the search finds nothing, [rag] does not stop: it sends the
    completion service the prompt that ends with "CONTEXT:" and returns the
    content of the first choice. *)
Theorem rag_without_hits (query : pystr) (t : list event)
    (response : search_response) (completion : chat_response) (choice : chat_choice) :
  es default_index_name (search_query query) = Ok response ->
  hits response = [] ->
  chat (llm_request (bare_prompt query)) = Ok completion ->
  choices completion !! 0%nat = Some choice ->
  rag es chat query t
  = (t ++ [Print marker_search; Search default_index_name (search_query query);
           Print marker_prompt; Print marker_llm;
           ChatCompletion (llm_request (bare_prompt query)); Print marker_return],
     Ok (content (message choice))).
Proof.
  intros Hes Hnone Hchat Hchoice.
  rewrite (rag_run_prompt es chat query t response (bare_prompt query) Hes).
  - rewrite Hchat. destruct completion as [[|c cs]]; [discriminate|].
    injection Hchoice as ->. reflexivity.
  - rewrite Hnone. apply (build_prompt_ok query []). constructor.
Qed.

End FurtherProperties.

Lemma elastic_search_returns_sources_witness :
  exists docs,
    elastic_search es_seven py"How do I join the course?" py"other-index" []
    = ([Search py"other-index" (search_query py"How do I join the course?")], Ok docs)
    /\ length docs = 7%nat
    /\ forall i, docs !! i = _source <$> replicate 7 {| _source := doc_course |} !! i.
Proof.
  apply (elastic_search_returns_sources es_seven py"How do I join the course?"
           py"other-index" [] {| hits := replicate 7 {| _source := doc_course |} |}).
  reflexivity.
Defined.

Lemma rag_key_error_witness :
  exists key,
    key ∈ prompt_keys
    /\ rag es_untexted chat_stub py"How do I join the course?" []
       = ([Print marker_search;
           Search default_index_name (search_query py"How do I join the course?");
           Print marker_prompt],
          Raise (KeyError key)).
Proof.
  apply (rag_key_error es_untexted chat_stub py"How do I join the course?" []
           {| hits := [ {| _source := doc_course |}; {| _source := doc_untexted |} ] |}).
  - reflexivity.
  - apply Exists_cons_tl, Exists_cons_hd. intros (_ & _ & [v Hv]).
    vm_compute in Hv. discriminate.
Defined.

Lemma rag_no_choice_witness :
  exists prompt,
    rag es_stub chat_no_choice py"How do I join the course?" []
    = ([Print marker_search;
        Search default_index_name (search_query py"How do I join the course?");
        Print marker_prompt; Print marker_llm;
        ChatCompletion (llm_request prompt)],
       Raise IndexError).
Proof.
  eexists.
  apply (rag_no_choice es_stub chat_no_choice py"How do I join the course?" []
           {| hits := [ {| _source := doc_course |} ] |} _ {| choices := [] |}).
  - reflexivity.
  - vm_compute. reflexivity.
  - reflexivity.
  - reflexivity.
Defined.

Lemma rag_without_hits_witness :
  rag es_empty chat_stub py"How do I join the course?" []
  = ([Print marker_search;
      Search default_index_name (search_query py"How do I join the course?");
      Print marker_prompt; Print marker_llm;
      ChatCompletion (llm_request (bare_prompt py"How do I join the course?"));
      Print marker_return],
     Ok py"Register on the course page.").
Proof.
  apply (rag_without_hits es_empty chat_stub py"How do I join the course?" []
           {| hits := [] |}
           {| choices :=
                [ {| message := {| role := py"assistant";
                                   content := py"Register on the course page." |} |} ] |}
           {| message := {| role := py"assistant";
                            content := py"Register on the course page." |} |}).
  - reflexivity.
  - reflexivity.
  - reflexivity.
  - reflexivity.
Defined.

(** ** The form *)

Lemma ui_step_without_rag (w : ui_state) (ev : ui_event) (t : list event) :
  ui_step None w ev t = (t, Raise (AttributeError py"rag"))
  \/ exists w',
       ui_step None w ev t = (t, Ok w')
       /\ (output_text (app w') = output_text (app w)
           \/ output_text (app w') = py"Processing...").
Proof.
  destruct ev as [text| |].
  - right. eexists. split; [reflexivity|]. left. reflexivity.
  - right. eexists. split; [reflexivity|]. right. reflexivity.
  - cbn [ui_step]. destruct (scheduled w) as [|[[] delay] rest].
    + right. eexists. split; [reflexivity|]. left. reflexivity.
    + left. reflexivity.
Qed.

(** X10: as the class has no attribute [rag], the form never reaches the
    services: whatever the state and whatever events follow, the event loop
    adds nothing to the trace, neither a search nor a completion request nor
    a console marker. *)
Theorem form_never_calls_services (evs : list ui_event) (w : ui_state) (t : list event) :
  (ui_run None evs w t).2 = t.
Proof.
  revert w. induction evs as [|ev evs IH]; intros w; [reflexivity|].
  cbn [ui_run]. destruct (ui_step_without_rag w ev t) as [->|(w' & -> & _)].
  - reflexivity.
  - specialize (IH w'). destruct (ui_run None evs w' t) as [[ws e] t'].
    exact IH.
Qed.

Lemma ui_run_shows_placeholder (evs : list ui_event) (w : ui_state) (t : list event) :
  shows_placeholder w -> Forall shows_placeholder (ui_run None evs w t).1.1.
Proof.
  revert w. induction evs as [|ev evs IH]; intros w Hw; [constructor|].
  cbn [ui_run]. destruct (ui_step_without_rag w ev t) as [->|(w' & -> & Hw')].
  - constructor.
  - assert (Hshow : shows_placeholder w').
    { destruct Hw' as [Heq|Heq]; [|right; exact Heq].
      unfold shows_placeholder. rewrite Heq. exact Hw. }
    specialize (IH w' Hshow). destruct (ui_run None evs w' t) as [[ws e] t'].
    constructor; assumption.
Qed.

(** X11: from the initial form, whatever events are handled, the output
    text of every state the event loop shows is "Initial Output" or
    "Processing...": no answer is ever displayed. *)
Theorem form_never_shows_answer (evs : list ui_event) (t : list event) :
  Forall shows_placeholder (ui_run None evs ui_initial t).1.1.
Proof. apply ui_run_shows_placeholder. left. reflexivity. Qed.

Lemma scheduled_after_clicks (n : nat) (w : ui_state) :
  scheduled (Nat.iter n on_ask_clicked w)
  = scheduled w ++ replicate n (FinishProcessing, 2).
Proof.
  induction n as [|n IH]; simpl.
  - rewrite app_nil_r. reflexivity.
  - rewrite IH, <- app_assoc, <- replicate_S_end. reflexivity.
Qed.

Lemma iter_on_ask_clicked (n : nat) (w : ui_state) :
  Nat.iter n on_ask_clicked (on_ask_clicked w) = Nat.iter (S n) on_ask_clicked w.
Proof. induction n as [|n IH]; [reflexivity|]. simpl. rewrite IH. reflexivity. Qed.

(** X12: nothing guards a submit while the form is busy: whatever [self.rag]
    is, n presses of Ask in a row are all handled, the i-th leaving the form
    pressed i times, and each schedules one more [finish_processing], so
    that n more callbacks, each with the timeout 2, are pending after
    them. *)
Theorem repeated_submits_all_scheduled (App_rag : option (pystr -> M pystr))
    (n : nat) (w : ui_state) (t : list event) :
  ui_run App_rag (replicate n AskClicked) w t
  = ((fun i => Nat.iter (S i) on_ask_clicked w) <$> seq 0 n, None, t)
  /\ scheduled (Nat.iter n on_ask_clicked w)
     = scheduled w ++ replicate n (FinishProcessing, 2).
Proof.
  split; [|apply scheduled_after_clicks].
  revert w. induction n as [|n IH]; intros w; [reflexivity|].
  cbn [replicate ui_run ui_step]. run_M. rewrite IH.
  cbn [seq fmap list_fmap]. rewrite <- fmap_S_seq, <- list_fmap_compose.
  f_equal. f_equal. f_equal. apply list_fmap_ext. intros _ i _.
  apply (iter_on_ask_clicked (S i) w).
Qed.

(** ** The widget tree *)

Section BuildProperties.

Variable widget : Type.
Variable builtins : list pystr.
Variable construct : pystr -> list (pystr * widget_arg) -> result widget.
Variable add_widget : widget -> widget -> result widget.

(** X13: [Label] is used by [build] but imported nowhere in the module: as
    long as Python's builtins have no such name, [build] never returns a
    layout, whatever the widget classes do; when the three widgets before
    the label are constructed, it ends with [NameError] for [Label]. *)
Theorem build_never_returns (self : MyTextInputApp) :
  py"Label" ∉ builtins ->
  (forall layout, build widget builtins construct add_widget self <> Built layout)
  /\ (forall layout input_box ask_button,
        construct py"BoxLayout" [(py"orientation", ArgStr py"vertical")] = Ok layout ->
        construct py"TextInput" [(py"hint_text", ArgStr py"Enter text here");
                                 (py"on_text_change", ArgMethod py"on_text_changed")]
        = Ok input_box ->
        construct py"Button" [(py"text", ArgStr py"Ask");
                              (py"on_press", ArgMethod py"on_ask_clicked")]
        = Ok ask_button ->
        build widget builtins construct add_widget self = NameError py"Label").
Proof.
  intros Hlabel.
  assert (Hload : load_global builtins py"Label" = NameError py"Label").
  { unfold load_global. rewrite bool_decide_eq_false_2.
    - rewrite bool_decide_eq_false_2 by exact Hlabel. reflexivity.
    - apply (proj1 (bool_decide_eq_false _)). vm_compute. reflexivity. }
  assert (Hbox : load_global builtins py"BoxLayout" = Built py"BoxLayout") by reflexivity.
  assert (Hinput : load_global builtins py"TextInput" = Built py"TextInput") by reflexivity.
  assert (Hbutton : load_global builtins py"Button" = Built py"Button") by reflexivity.
  assert (Hm1 : load_method py"on_text_changed" = Built (ArgMethod py"on_text_changed"))
    by reflexivity.
  assert (Hm2 : load_method py"on_ask_clicked" = Built (ArgMethod py"on_ask_clicked"))
    by reflexivity.
  unfold build. rewrite Hload, Hbox, Hinput, Hbutton, Hm1, Hm2.
  cbn [mbind build_outcome_bind]. split.
  - intros layout.
    destruct (construct py"BoxLayout" _); [|discriminate]. cbn [of_result].
    destruct (construct py"TextInput" _); [|discriminate]. cbn [of_result].
    destruct (construct py"Button" _); discriminate.
  - intros layout input_box ask_button -> -> ->. reflexivity.
Qed.

End BuildProperties.

Lemma build_never_returns_witness :
  (forall layout,
     build tree some_builtins tree_construct tree_add_widget initial_app <> Built layout)
  /\ build tree some_builtins tree_construct tree_add_widget initial_app
     = NameError py"Label".
Proof.
  assert (Hlabel : py"Label" ∉ some_builtins).
  { apply (proj1 (bool_decide_eq_false _)). vm_compute. reflexivity. }
  split.
  - apply (proj1 (build_never_returns tree some_builtins tree_construct
                    tree_add_widget initial_app Hlabel)).
  - apply (proj2 (build_never_returns tree some_builtins tree_construct
                    tree_add_widget initial_app Hlabel)
             (Node py"BoxLayout" [(py"orientation", ArgStr py"vertical")] [])
             (Node py"TextInput" [(py"hint_text", ArgStr py"Enter text here");
                                  (py"on_text_change", ArgMethod py"on_text_changed")] [])
             (Node py"Button" [(py"text", ArgStr py"Ask");
                               (py"on_press", ArgMethod py"on_ask_clicked")] [])).
    + reflexivity.
    + reflexivity.
    + reflexivity.
Defined.
